(** * NSE stock analyzer: the metric derivations of [stock_analyzer.py]

    A shallow embedding of [StockDataOperator] and of the static ticker
    list, with the Python semantics the class relies on written out:
    [dict.get], truth testing, the short-circuit [and] / [or] that return
    an operand, ordering comparisons that raise on [None], and
    [try] / [except] around the data provider. *)

From Stdlib Require Import PrimFloat ZArith Ascii.
From stdpp Require Import gmap strings list pretty.

Set Warnings "-inexact-float,-clear-no-such-hyp".

(** ** Python objects and exceptions *)

Module Py.

(** The objects the class handles: [None], a [float] (an IEEE binary64,
    as a kernel float) and the [bool] that a comparison yields.  The
    numbers of a quote are doubles; a whole number below 2^53 in
    magnitude, and so the literals [15] and [35] of the source, behaves
    under every operation used here (truth test, ordering comparison,
    product with a float) as the double of the same value. *)
Inductive obj : Type :=
| None
| Float (x : float)
| Bool (b : bool).

Inductive exn : Type :=
| TypeError
| AttributeError.

Inductive result (A : Type) : Type :=
| Ok (a : A)
| Raise (e : exn).
Arguments Ok {A} a.
Arguments Raise {A} e.

#[global] Instance result_ret : MRet result := λ A a, Ok a.
#[global] Instance result_bind : MBind result := λ A B k m,
  match m with
  | Ok a => k a
  | Raise e => Raise e
  end.

(** [bool(v)]: [None], [0.0], [-0.0] and [False] are false; everything
    else (a NaN too) is true. *)
Definition truthy (v : obj) : bool :=
  match v with
  | None => false
  | Float x => negb (PrimFloat.eqb x 0)
  | Bool b => b
  end.

(** The operand of an arithmetic operator or an ordering comparison:
    [None] supports neither. *)
Definition number (v : obj) : result float :=
  match v with
  | None => Raise TypeError
  | Float x => Ok x
  | Bool b => Ok (if b then 1%float else 0%float)
  end.

Definition binop {A : Type} (f : float → float → A) (a b : obj) : result A :=
  x ← number a; y ← number b; Ok (f x y).

Definition lt : obj → obj → result bool := binop PrimFloat.ltb.
Definition gt : obj → obj → result bool := binop (λ x y, PrimFloat.ltb y x).
Definition le : obj → obj → result bool := binop PrimFloat.leb.
Definition ge : obj → obj → result bool := binop (λ x y, PrimFloat.leb y x).
Definition mul (a b : obj) : result obj :=
  binop (λ x y, Float (PrimFloat.mul x y)) a b.

(** [a or b] and [a and b] yield one of their operands; the second is
    evaluated only when the first does not decide. *)
Definition or_ (a : obj) (b : result obj) : result obj :=
  if truthy a then Ok a else b.
Definition and_ (a : obj) (b : result obj) : result obj :=
  if truthy a then b else Ok a.

(** [d.get(k)] on a dict whose values are floats. *)
Definition get (d : gmap string float) (k : string) : obj :=
  match d !! k with
  | Some x => Float x
  | Datatypes.None => None
  end.

(** [s.isascii()] *)
Fixpoint isascii (s : string) : bool :=
  match s with
  | EmptyString => true
  | String c s' => Nat.ltb (Ascii.nat_of_ascii c) 128 && isascii s'
  end.

(** [s.upper()] on an ASCII string, where it turns the letters a to z
    into A to Z and keeps every other character.  Outside ASCII
    [str.upper] follows the Unicode tables, which are not modelled. *)
Definition upper_ascii (c : Ascii.ascii) : Ascii.ascii :=
  let n := Ascii.nat_of_ascii c in
  if (Nat.leb 97 n && Nat.leb n 122)%bool
  then Ascii.ascii_of_nat (n - 32)%nat else c.

Fixpoint upper (s : string) : string :=
  match s with
  | EmptyString => EmptyString
  | String c s' => String (upper_ascii c) (upper s')
  end.

End Py.

(** ** The data provider

    [yfinance.Ticker]: the [info] property and [history(period)] either
    yield their value or raise an exception, of which the class only uses
    the text. *)

Inductive provided (A : Type) : Type :=
| Provided (a : A)
| Failed (message : string).
Arguments Provided {A} a.
Arguments Failed {A} message.

(** A row of the price history; the class reads the [Volume] column only,
    a column of 64-bit signed integers. *)
Record bar : Type := Bar {
  Open : float;
  High : float;
  Low : float;
  Close : float;
  Volume : Z;
}.

Definition DataFrame : Type := list bar.

(** [df.empty] *)
Definition empty (df : DataFrame) : bool :=
  match df with
  | [] => true
  | _ :: _ => false
  end.

(** An integer as a 64-bit signed integer: reduced modulo 2^64 into the
    range from -2^63 to 2^63 - 1. *)
Definition int64 (z : Z) : Z :=
  ((z + 9223372036854775808) mod 18446744073709551616 - 9223372036854775808)%Z.

(** [df['Volume'].sum()]: the column, added up from its first row on in
    64-bit arithmetic, where an addition that overflows wraps around. *)
Definition column_sum (col : list Z) : Z :=
  fold_left (λ acc v, int64 (acc + v)) col 0%Z.

(** What the provider answers during one fetch. *)
Record Ticker : Type := {
  quote_info : provided (gmap string float);
  history : string → provided DataFrame;
}.

(** ** [class StockDataOperator] *)

Module StockDataOperator.

(** The instance attributes.  [info] and [historical_data] are [None]
    until a fetch has stored them. *)
Record t : Type := Self {
  ticker : string;
  stock : Ticker;
  info : option (gmap string float);
  historical_data : option DataFrame;
}.

(** What [streamlit] has been asked to show: the texts of [st.error]. *)
Definition screen : Type := list string.

(** [__init__], over the provider's constructor [yf.Ticker]. *)
Definition __init__ (yf : string → Ticker) (ticker : string) : t :=
  let ticker := Py.upper ticker +:+ ".NS" in
  {| ticker := ticker; stock := yf ticker;
     info := None; historical_data := None |}.

(** [fetch_data]: the attributes are assigned one after the other, so a
    failure of [history] leaves [info] already stored. *)
Definition fetch_data (self : t) (st : screen) : bool * t * screen :=
  match quote_info (stock self) with
  | Failed e => (false, self, st ++ ["Data fetch failed: " +:+ e])
  | Provided i =>
      let self := {| ticker := ticker self; stock := stock self;
                     info := Some i;
                     historical_data := historical_data self |} in
      match history (stock self) "1wk" with
      | Failed e => (false, self, st ++ ["Data fetch failed: " +:+ e])
      | Provided h =>
          (true,
           {| ticker := ticker self; stock := stock self;
              info := info self; historical_data := Some h |},
           st)
      end
  end.

(** [self.info.get(k)]: an [AttributeError] while [self.info] is [None]. *)
Definition info_get (self : t) (k : string) : Py.result Py.obj :=
  match info self with
  | Some d => Py.Ok (Py.get d k)
  | None => Py.Raise Py.AttributeError
  end.

Definition _get_current_price (self : t) : Py.result Py.obj :=
  a ← info_get self "currentPrice";
  Py.or_ a (info_get self "regularMarketPreviousClose").

Definition _calculate_weekly_volume (self : t) : option Z :=
  match historical_data self with
  | Some df => if negb (empty df) then Some (column_sum (Volume <$> df)) else None
  | None => None
  end.

Definition _near_52_week_high (self : t) (threshold : float) : Py.result Py.obj :=
  high ← info_get self "fiftyTwoWeekHigh";
  current ← _get_current_price self;
  Py.and_ current
    (Py.and_ high
       (bound ← Py.mul high (Py.Float threshold);
        c ← Py.ge current bound;
        Py.Ok (Py.Bool c))).

Definition _near_52_week_low (self : t) (threshold : float) : Py.result Py.obj :=
  low ← info_get self "fiftyTwoWeekLow";
  current ← _get_current_price self;
  Py.and_ current
    (Py.and_ low
       (bound ← Py.mul low (Py.Float threshold);
        c ← Py.le current bound;
        Py.Ok (Py.Bool c))).

(** [_get_valuation_assessment] up to its [return]: the list [assessment]
    after the three rules. *)
Definition rule_labels (self : t) : Py.result (list string) :=
  let assessment := [] in
  pe ← info_get self "trailingPE";
  assessment ←
    (if Py.truthy pe then
       under ← Py.lt pe (Py.Float 15);
       if (under : bool) then Py.Ok (assessment ++ ["Undervalued (P/E < 15)"])
       else
         over ← Py.gt pe (Py.Float 35);
         if (over : bool) then Py.Ok (assessment ++ ["Overvalued (P/E > 35)"])
         else Py.Ok (assessment ++ ["Fair Valuation"])
     else Py.Ok assessment);
  near_high ← _near_52_week_high self 0.95;
  let assessment :=
    if Py.truthy near_high then assessment ++ ["Near 52-week High"]
    else assessment in
  near_low ← _near_52_week_low self 1.05;
  let assessment :=
    if Py.truthy near_low then assessment ++ ["Near 52-week Low"]
    else assessment in
  Py.Ok assessment.

Definition _get_valuation_assessment (self : t) : Py.result (list string) :=
  assessment ← rule_labels self;
  Py.Ok (match assessment with
         | _ :: _ => assessment
         | [] => ["No significant alerts"]
         end).

(** The dict that [get_all_metrics] returns, key by key
    (['52_week_high'] and ['52_week_low'] are [week52_high] and
    [week52_low]). *)
Record metrics : Type := Metrics {
  m_ticker : string;
  current_price : Py.obj;
  week52_high : Py.obj;
  week52_low : Py.obj;
  avg_daily_volume : Py.obj;
  weekly_volume : option Z;
  pe_ratio : Py.obj;
  valuation_assessment : list string;
}.

Definition get_all_metrics (self : t) (st : screen)
  : Py.result (option metrics) * t * screen :=
  let '(fetched, self, st) := fetch_data self st in
  if negb fetched then (Py.Ok None, self, st)
  else
    (cp ← _get_current_price self;
     hi ← info_get self "fiftyTwoWeekHigh";
     lo ← info_get self "fiftyTwoWeekLow";
     av ← info_get self "averageVolume";
     let wv := _calculate_weekly_volume self in
     pe ← info_get self "trailingPE";
     va ← _get_valuation_assessment self;
     Py.Ok (Some {| m_ticker := ticker self; current_price := cp;
                    week52_high := hi; week52_low := lo;
                    avg_daily_volume := av; weekly_volume := wv;
                    pe_ratio := pe; valuation_assessment := va |}),
     self, st).

End StockDataOperator.

(** ** [fetch_all_nse_tickers]

    The list literal of the source; after ["PREMEXPLN"] two adjacent
    string literals stand with no comma between them, which Python joins
    into one string. *)
Definition fetch_all_nse_tickers : list string :=
  [ "WELCORP"; "FORTIS"; "BEL"; "TDPOWERSYS"; "ANANTRAJ"; "TARIL"; "KAYNES";
    "SOUTHBANK"; "OLECTRA"; "JWL"; "PREMEXPLN";
    "FEDERALBNK" +:+ "AAVAS";
    "MANKIND"; "BLS"; "ARVINDFASN"; "POLYMED"; "REDTAPE"; "SJS"; "APTUS";
    "MEDANTA"; "IDFCFIRSTB"; "BIKAJI"; "PNGJL"; "BSOFT"; "THOMASCOOK";
    "BAJFINANCE"; "NH"; "EMUDHRA"; "SBFC"; "VBL"; "SHRIRAMFIN"; "TATAELXSI";
    "BECTORFOOD"; "ABCAPITAL"; "KAJARIACER"; "TATAMOTORS" ].

(** ** The values the methods compute from a quote *)

Import StockDataOperator.

(** The quote fields the class reads. *)
Abbreviation quote := (gmap string float).

(** The value of [currentPrice or regularMarketPreviousClose]. *)
Definition current_value (d : quote) : Py.obj :=
  let a := Py.get d "currentPrice" in
  if Py.truthy a then a else Py.get d "regularMarketPreviousClose".

(** The truth value of [current and limit and cmp(current, limit * threshold)]
    for a limit read from the quote. *)
Definition band (cmp : float → float → bool) (current : Py.obj)
    (limit : option float) (threshold : float) : bool :=
  match current, limit with
  | Py.Float c, Some h =>
      negb (PrimFloat.eqb c 0) && negb (PrimFloat.eqb h 0)
      && cmp c (PrimFloat.mul h threshold)
  | _, _ => false
  end.

Definition float_ge (x y : float) : bool := PrimFloat.leb y x.
Definition float_gt (x y : float) : bool := PrimFloat.ltb y x.

(** The label of rule 1 for a price-earnings ratio that passes [if pe:]. *)
Definition pe_label (pe : float) : string :=
  if PrimFloat.ltb pe 15 then "Undervalued (P/E < 15)"
  else if float_gt pe 35 then "Overvalued (P/E > 35)"
  else "Fair Valuation".

Definition pe_part (d : quote) : list string :=
  match d !! "trailingPE" with
  | Some pe => if negb (PrimFloat.eqb pe 0) then [pe_label pe] else []
  | None => []
  end.

Definition flag (b : bool) (label : string) : list string :=
  if b then [label] else [].

(** ** Quotes and operators used as examples, and the names of the labels *)

(** A provider that answers with the quote [d] and the history [h]. *)
Definition feed (d : quote) (h : DataFrame) : Ticker :=
  {| quote_info := Provided d; history := λ _, Provided h |}.

(** The operator for ["welcorp"] after a successful [fetch_data]. *)
Definition loaded (d : quote) (h : DataFrame) : t :=
  {| ticker := "WELCORP.NS"; stock := feed d h;
     info := Some d; historical_data := Some h |}.

(** A string literal that is none of the literals of a list. *)
Ltac not_listed H :=
  repeat (apply elem_of_cons in H as [H|H]; [discriminate H|]);
  by apply elem_of_nil in H.

(** Literals that differ from one another, and literals taken in order. *)
Ltac distinct_labels :=
  repeat (apply NoDup_cons_2;
          [rewrite ?elem_of_cons, ?elem_of_nil;
           intuition (first [congruence | discriminate])|]);
  apply NoDup_nil_2.

Ltac in_order :=
  repeat first [apply sublist_skip | apply sublist_cons | apply sublist_nil].

(** The three labels of rule 1. *)
Definition pe_labels : list string :=
  ["Undervalued (P/E < 15)"; "Overvalued (P/E > 35)"; "Fair Valuation"].

(** A price-earnings ratio of zero and nothing else. *)
Definition quote_pe_zero : quote := {[ "trailingPE" := 0%float ]}.

(** A current price of zero beside a previous close of 5. *)
Definition quote_price_zero : quote :=
  <["currentPrice" := 0%float]> {[ "regularMarketPreviousClose" := 5%float ]}.

(** No current price, only the previous close. *)
Definition quote_closed_only : quote :=
  {[ "regularMarketPreviousClose" := 250.5%float ]}.

(** A previous close and a 52-week high that are both zero. *)
Definition quote_zero_high : quote :=
  <["regularMarketPreviousClose" := 0%float]> {[ "fiftyTwoWeekHigh" := 0%float ]}.

(** 104 * 0.95 is 98.8 up to rounding, and 100 is above it. *)
Definition quote_near_high : quote :=
  <["currentPrice" := 100%float]> {[ "fiftyTwoWeekHigh" := 104%float ]}.

(** A previous close and a 52-week low that are both zero. *)
Definition quote_zero_low : quote :=
  <["regularMarketPreviousClose" := 0%float]> {[ "fiftyTwoWeekLow" := 0%float ]}.

(** 48 * 1.05 is 50.4 up to rounding, and 50 is below it. *)
Definition quote_near_low : quote :=
  <["currentPrice" := 50%float]> {[ "fiftyTwoWeekLow" := 48%float ]}.

(** A year's range of 96 to 104 around a price of 100: 104 * 0.95 is
    below 100 and 96 * 1.05 is above it. *)
Definition quote_narrow_band : quote :=
  <["currentPrice" := 100%float]>
    (<["fiftyTwoWeekHigh" := 104%float]> {[ "fiftyTwoWeekLow" := 96%float ]}).

(** A history of two points whose volumes add up to 2^63. *)
Definition history_two_large : DataFrame :=
  [ Bar 1 1 1 1 4611686018427387904; Bar 1 1 1 1 4611686018427387904 ].

(** The sum of the per-point volumes, as the specification words it. *)
Fixpoint total_volume (df : DataFrame) : Z :=
  match df with
  | [] => 0
  | point :: rest => Volume point + total_volume rest
  end.

(** The labels that rules 1 to 3 can append. *)
Definition rule_label_names : list string :=
  pe_labels ++ ["Near 52-week High"; "Near 52-week Low"].

(** ** The page: [display_results] and [main]

    The calls made to [streamlit], in the order they are made.  A call
    whose argument cannot be built (a format applied to [None]) raises
    before it is made, and what was shown before stays shown. *)

Inductive widget : Type :=
| title (text : string)
| sidebar_header (text : string)
| sidebar_selectbox (label : string) (options : list string)
| subheader (text : string)
| write (text : string)
| metric (label value : string)
| error (text : string)
| success (text : string).

Definition page : Type := list widget.

(** A computation that shows widgets and may raise. *)
Definition ui (A : Type) : Type := page → Py.result A * page.

#[global] Instance ui_ret : MRet ui := λ A a shown, (Py.Ok a, shown).
#[global] Instance ui_bind : MBind ui := λ A B k m shown,
  match m shown with
  | (Py.Ok a, shown) => k a shown
  | (Py.Raise e, shown) => (Py.Raise e, shown)
  end.

Definition show (w : widget) : ui unit := λ shown, (Py.Ok tt, shown ++ [w]).
Definition eval {A : Type} (r : Py.result A) : ui A := λ shown, (r, shown).

(** Python's renderings of a float, which are not part of this program:
    [format(x, '.2f')], [str(x)] and [format(x, ',')]. *)
Record formats : Type := {
  fixed2 : float → string;
  str : float → string;
  grouped : float → string;
}.

(** [format(n, ',')] for an integer: the decimal digits, a comma before
    every group of three counted from the right, after the sign. *)
Fixpoint group (room : nat) (digits : list Ascii.ascii) : list Ascii.ascii :=
  match digits with
  | [] => []
  | d :: rest =>
      match room with
      | O => ","%char :: d :: group 2 rest
      | S room' => d :: group room' rest
      end
  end.

Definition format_comma (n : Z) : string :=
  let digits := String.list_ascii_of_string (pretty (Z.abs n)) in
  (if (n <? 0)%Z then "-" else "")
  +:+ String.string_of_list_ascii (rev (group 3 (rev digits))).

(** [sub in s] for two strings. *)
Fixpoint contains (sub s : string) : bool :=
  String.prefix sub s
  || match s with
     | EmptyString => false
     | String _ s' => contains sub s'
     end.

Section Page.

Variable F : formats.

(** [f"{v:.2f}"], [f"{v:,}"] and [f"{v}"] for an object of a record. *)
Definition format_fixed2 (v : Py.obj) : Py.result string :=
  match v with
  | Py.None => Py.Raise Py.TypeError
  | Py.Float x => Py.Ok (fixed2 F x)
  | Py.Bool b => Py.Ok (if b then "1.00" else "0.00")
  end.

Definition format_grouped (v : Py.obj) : Py.result string :=
  match v with
  | Py.None => Py.Raise Py.TypeError
  | Py.Float x => Py.Ok (grouped F x)
  | Py.Bool b => Py.Ok (if b then "1" else "0")
  end.

Definition format_str (v : Py.obj) : string :=
  match v with
  | Py.None => "None"
  | Py.Float x => str F x
  | Py.Bool b => if b then "True" else "False"
  end.

(** The body of the loop over [data['valuation_assessment']]. *)
Definition show_alert (alert : string) : widget :=
  if contains "Overvalued" alert || contains "High" alert
  then error ("• " +:+ alert)
  else success ("• " +:+ alert).

Fixpoint show_alerts (alerts : list string) : ui unit :=
  match alerts with
  | [] => mret tt
  | alert :: rest => show (show_alert alert);; show_alerts rest
  end.

Definition display_results (data : metrics) : ui unit :=
  show (subheader (m_ticker data +:+ " Stock Analysis"));;
  show (write "### Price Information");;
  v ← eval (format_fixed2 (current_price data));
  show (metric "Current Price" ("₹" +:+ v));;
  v ← eval (format_fixed2 (week52_high data));
  show (metric "52-Week High" ("₹" +:+ v));;
  v ← eval (format_fixed2 (week52_low data));
  show (metric "52-Week Low" ("₹" +:+ v));;
  show (write "### Valuation Metrics");;
  show (write ("**P/E Ratio:** "
               +:+ (if Py.truthy (pe_ratio data) then format_str (pe_ratio data)
                    else "N/A")));;
  text ← (if Py.truthy (avg_daily_volume data)
          then v ← eval (format_grouped (avg_daily_volume data));
               mret ("**Average Daily Volume:** " +:+ v)
          else mret "N/A");
  show (write text);;
  show (write (match weekly_volume data with
               | Some n => if (n =? 0)%Z then "N/A"
                           else "**Weekly Volume:** " +:+ format_comma n
               | None => "N/A"
               end));;
  show (write "### Valuation Alerts");;
  show_alerts (valuation_assessment data).

(** [main], over the provider and over what the select box returns: the
    option the user chose, or [None] when it has no options. *)
Definition main (yf : string → Ticker) (selected_ticker : option string) : ui unit :=
  show (title "NSE Stock Analyzer");;
  show (sidebar_header "Select Stock");;
  let nse_tickers := fetch_all_nse_tickers in
  show (sidebar_selectbox "Choose a stock symbol:" nse_tickers);;
  match selected_ticker with
  | Some (String _ _ as selected_ticker) =>
      show (write ("### Selected Stock: " +:+ selected_ticker));;
      let analyzer := __init__ yf selected_ticker in
      data ← (λ shown,
                let '(data, _, errors) := get_all_metrics analyzer [] in
                (data, shown ++ (error <$> errors)));
      match data with
      | Some data => display_results data
      | None => show (error ("Could not retrieve data for " +:+ selected_ticker))
      end
  | _ => mret tt
  end.

End Page.

(** The widgets [main] shows before it looks at the selection. *)
Definition main_head : page :=
  [ title "NSE Stock Analyzer"; sidebar_header "Select Stock";
    sidebar_selectbox "Choose a stock symbol:" fetch_all_nse_tickers ].

(** ** The methods on a stored quote *)

Section Fetched.

Variable self : t.
Variable d : quote.
Hypothesis info_stored : info self = Some d.

Lemma info_get_run k : info_get self k = Py.Ok (Py.get d k).
Proof using info_stored. unfold info_get. by rewrite info_stored. Qed.

Lemma current_price_run : _get_current_price self = Py.Ok (current_value d).
Proof using info_stored.
  unfold _get_current_price, current_value, Py.or_. rewrite !info_get_run. cbn.
  by destruct (Py.truthy _).
Qed.

Lemma current_value_cases :
  current_value d = Py.None ∨ ∃ c, current_value d = Py.Float c.
Proof.
  unfold current_value, Py.get.
  destruct (d !! "currentPrice") as [c|], (d !! "regularMarketPreviousClose") as [p|];
    cbn; try destruct (PrimFloat.eqb c 0); cbn; eauto.
Qed.

Lemma near_high_run thr :
  ∃ v, _near_52_week_high self thr = Py.Ok v
       ∧ Py.truthy v = band float_ge (current_value d) (d !! "fiftyTwoWeekHigh") thr.
Proof using info_stored.
  unfold _near_52_week_high. rewrite info_get_run, current_price_run. cbn.
  destruct current_value_cases as [-> | [c ->]]; [by eexists|].
  unfold Py.get, band, float_ge.
  destruct (d !! "fiftyTwoWeekHigh") as [h|]; unfold Py.and_; cbn;
    destruct (PrimFloat.eqb c 0) eqn:Ec; cbn;
    try destruct (PrimFloat.eqb h 0) eqn:Eh; cbn;
    (eexists; split; [reflexivity | cbn; by rewrite ?Ec, ?Eh]).
Qed.

Lemma near_low_run thr :
  ∃ v, _near_52_week_low self thr = Py.Ok v
       ∧ Py.truthy v = band PrimFloat.leb (current_value d) (d !! "fiftyTwoWeekLow") thr.
Proof using info_stored.
  unfold _near_52_week_low. rewrite info_get_run, current_price_run. cbn.
  destruct current_value_cases as [-> | [c ->]]; [by eexists|].
  unfold Py.get, band.
  destruct (d !! "fiftyTwoWeekLow") as [h|]; unfold Py.and_; cbn;
    destruct (PrimFloat.eqb c 0) eqn:Ec; cbn;
    try destruct (PrimFloat.eqb h 0) eqn:Eh; cbn;
    (eexists; split; [reflexivity | cbn; by rewrite ?Ec, ?Eh]).
Qed.

Lemma rule_labels_run :
  rule_labels self =
    Py.Ok (pe_part d
           ++ flag (band float_ge (current_value d) (d !! "fiftyTwoWeekHigh") 0.95)
                "Near 52-week High"
           ++ flag (band PrimFloat.leb (current_value d) (d !! "fiftyTwoWeekLow") 1.05)
                "Near 52-week Low").
Proof using info_stored.
  unfold rule_labels. rewrite info_get_run.
  destruct (near_high_run 0.95) as (vh & -> & Th).
  destruct (near_low_run 1.05) as (vl & -> & Tl).
  unfold pe_part, pe_label, float_gt, Py.get.
  destruct (d !! "trailingPE") as [pe|]; cbn;
    [destruct (PrimFloat.eqb pe 0); cbn;
     [|destruct (PrimFloat.ltb pe 15); cbn; [|destruct (PrimFloat.ltb 35 pe); cbn]]|];
    rewrite Th, Tl; by do 2 destruct (band _ _ _ _).
Qed.

End Fetched.

Lemma loaded_by_fetch d h :
  fetch_data (__init__ (λ _, feed d h) "welcorp") [] = (true, loaded d h, []).
Proof. reflexivity. Qed.

(** [assessment if assessment else ["No significant alerts"]] *)
Lemma valuation_assessment_run self d :
  info self = Some d →
  ∃ rules, rule_labels self = Py.Ok rules
    ∧ _get_valuation_assessment self
      = Py.Ok (match rules with _ :: _ => rules | [] => ["No significant alerts"] end).
Proof.
  intros Hd. unfold _get_valuation_assessment.
  rewrite (rule_labels_run self d Hd). eexists. split; reflexivity.
Qed.

Lemma pe_label_cases pe :
  pe_label pe = "Undervalued (P/E < 15)" ∨ pe_label pe = "Overvalued (P/E > 35)"
  ∨ pe_label pe = "Fair Valuation".
Proof. unfold pe_label. repeat case_match; auto. Qed.

(** ** C1: the price-earnings rule *)

(** C1, as stated, fails: this quote has [trailingPE] present and below 15,
    and the assessment carries none of the three P/E labels. *)
Lemma pe_zero_has_no_pe_label :
  quote_pe_zero !! "trailingPE" = Some 0%float
  ∧ PrimFloat.ltb 0 15 = true
  ∧ _get_valuation_assessment (loaded quote_pe_zero [])
    = Py.Ok ["No significant alerts"]
  ∧ ∀ x, x ∈ pe_labels → x ∉ ["No significant alerts"].
Proof.
  repeat split. intros x Hx Hin.
  apply list_elem_of_singleton in Hin as ->.
  unfold pe_labels in Hx. not_listed Hx.
Qed.

(** C1 (amended): when [trailingPE] is present and not zero the assessment
    carries exactly one of the three P/E labels, "Undervalued (P/E < 15)"
    when PE < 15, "Overvalued (P/E > 35)" when PE > 35 and "Fair Valuation"
    otherwise; when [trailingPE] is absent or zero it carries none. *)
Theorem pe_rule_one_label self d :
  info self = Some d →
  ∃ l, _get_valuation_assessment self = Py.Ok l
    ∧ filter (.∈ pe_labels) l =
        match d !! "trailingPE" with
        | Some pe =>
            if PrimFloat.eqb pe 0 then []
            else [ if PrimFloat.ltb pe 15 then "Undervalued (P/E < 15)"
                   else if PrimFloat.ltb 35 pe then "Overvalued (P/E > 35)"
                   else "Fair Valuation" ]
        | None => []
        end.
Proof.
  intros Hd. destruct (valuation_assessment_run self d Hd) as (rules & Hr & ->).
  rewrite (rule_labels_run self d Hd) in Hr. injection Hr as <-.
  eexists. split; [reflexivity|].
  unfold pe_part, pe_label, float_gt, flag.
  destruct (d !! "trailingPE") as [pe|]; cbn;
    [destruct (PrimFloat.eqb pe 0); cbn;
     [|destruct (PrimFloat.ltb pe 15); [|destruct (PrimFloat.ltb 35 pe)]]|];
    by do 2 destruct (band _ _ _ _).
Qed.

Lemma pe_rule_one_label_witness :
  ∃ l, _get_valuation_assessment (loaded {[ "trailingPE" := 20%float ]} []) = Py.Ok l
    ∧ filter (.∈ pe_labels) l = ["Fair Valuation"].
Proof.
  exact (pe_rule_one_label (loaded {[ "trailingPE" := 20%float ]} []) _ eq_refl).
Defined.

(** The three ranges of the ratio, and a NaN, which is neither below 15
    nor above 35. *)
Example pe_12 :
  _get_valuation_assessment (loaded {[ "trailingPE" := 12%float ]} [])
  = Py.Ok ["Undervalued (P/E < 15)"].
Proof. reflexivity. Qed.

Example pe_40 :
  _get_valuation_assessment (loaded {[ "trailingPE" := 40%float ]} [])
  = Py.Ok ["Overvalued (P/E > 35)"].
Proof. reflexivity. Qed.

Example pe_15_and_35 :
  _get_valuation_assessment (loaded {[ "trailingPE" := 15%float ]} [])
  = Py.Ok ["Fair Valuation"]
  ∧ _get_valuation_assessment (loaded {[ "trailingPE" := 35%float ]} [])
    = Py.Ok ["Fair Valuation"].
Proof. split; reflexivity. Qed.

Example pe_nan :
  _get_valuation_assessment (loaded {[ "trailingPE" := nan ]} [])
  = Py.Ok ["Fair Valuation"].
Proof. reflexivity. Qed.

(** ** C2 and C3: the current price *)

Lemma float_5_is_not_0 : Py.Float 5 ≠ Py.Float 0.
Proof.
  intros H. apply (f_equal Py.truthy) in H. discriminate H.
Qed.

(** C2, as stated, fails: [currentPrice] is present in this quote, with the
    value 0.0, and the price returned is the previous close, 5.0. *)
Lemma price_zero_is_replaced :
  quote_price_zero !! "currentPrice" = Some 0%float
  ∧ _get_current_price (loaded quote_price_zero []) = Py.Ok (Py.Float 5)
  ∧ Py.Float 5 ≠ Py.Float 0.
Proof. repeat split. apply float_5_is_not_0. Qed.

(** C2 (amended): when [currentPrice] is present and not zero,
    [_get_current_price] returns it unchanged, whatever
    [regularMarketPreviousClose] is set to, or when it is removed. *)
Theorem current_price_kept self d c (previous : option float) :
  info self = Some (partial_alter (λ _, previous) "regularMarketPreviousClose" d) →
  d !! "currentPrice" = Some c →
  PrimFloat.eqb c 0 = false →
  _get_current_price self = Py.Ok (Py.Float c).
Proof.
  intros Hd Hc Hnz. rewrite (current_price_run self _ Hd).
  unfold current_value, Py.get.
  rewrite lookup_partial_alter_ne by done. rewrite Hc. cbn. by rewrite Hnz.
Qed.

Lemma current_price_kept_witness :
  _get_current_price
    (loaded (<["regularMarketPreviousClose" := 90%float]> {[ "currentPrice" := 100%float ]}) [])
  = Py.Ok (Py.Float 100).
Proof.
  apply (current_price_kept _ {[ "currentPrice" := 100%float ]} 100 (Some 90%float));
    reflexivity.
Defined.

(** C3: [_get_current_price] returns [currentPrice] when that is present
    and not zero; otherwise [regularMarketPreviousClose] when that is
    present; otherwise [None].  In each case it returns: nothing is raised. *)
Theorem current_price_fallback self d :
  info self = Some d →
  (∀ c, d !! "currentPrice" = Some c → PrimFloat.eqb c 0 = false →
        _get_current_price self = Py.Ok (Py.Float c))
  ∧ (d !! "currentPrice" = None
     ∨ (∃ c, d !! "currentPrice" = Some c ∧ PrimFloat.eqb c 0 = true) →
     (∀ p, d !! "regularMarketPreviousClose" = Some p →
           _get_current_price self = Py.Ok (Py.Float p))
     ∧ (d !! "regularMarketPreviousClose" = None →
        _get_current_price self = Py.Ok Py.None)).
Proof.
  intros Hd. rewrite (current_price_run self d Hd).
  unfold current_value, Py.get. split.
  - intros c -> Hnz. cbn. by rewrite Hnz.
  - intros [-> | (c & -> & Hz)]; cbn; rewrite ?Hz; cbn;
      (split; [by intros p -> | by intros ->]).
Qed.

Lemma current_price_fallback_witness :
  (∀ c, quote_closed_only !! "currentPrice" = Some c → PrimFloat.eqb c 0 = false →
        _get_current_price (loaded quote_closed_only []) = Py.Ok (Py.Float c))
  ∧ (quote_closed_only !! "currentPrice" = None
     ∨ (∃ c, quote_closed_only !! "currentPrice" = Some c ∧ PrimFloat.eqb c 0 = true) →
     (∀ p, quote_closed_only !! "regularMarketPreviousClose" = Some p →
           _get_current_price (loaded quote_closed_only []) = Py.Ok (Py.Float p))
     ∧ (quote_closed_only !! "regularMarketPreviousClose" = None →
        _get_current_price (loaded quote_closed_only []) = Py.Ok Py.None)).
Proof. exact (current_price_fallback (loaded quote_closed_only []) _ eq_refl). Defined.

(** The three cases of the price on concrete quotes. *)
Example price_current_first :
  _get_current_price
    (loaded (<["currentPrice" := 101.5%float]> quote_closed_only) [])
  = Py.Ok (Py.Float 101.5).
Proof. reflexivity. Qed.

Example price_previous_close :
  _get_current_price (loaded quote_closed_only []) = Py.Ok (Py.Float 250.5).
Proof. reflexivity. Qed.

Example price_absent : _get_current_price (loaded ∅ []) = Py.Ok Py.None.
Proof. reflexivity. Qed.

(** Before any fetch there is no [info] to read. *)
Example price_before_fetch :
  _get_current_price (__init__ (λ _, feed ∅ []) "welcorp")
  = Py.Raise Py.AttributeError.
Proof. reflexivity. Qed.

(** ** The labels of an assessment *)

Lemma band_true cmp current limit thr :
  band cmp current limit thr = true ↔
  ∃ c h, current = Py.Float c ∧ limit = Some h
         ∧ PrimFloat.eqb c 0 = false ∧ PrimFloat.eqb h 0 = false
         ∧ cmp c (PrimFloat.mul h thr) = true.
Proof.
  unfold band. split.
  - destruct current as [|c|]; try discriminate. destruct limit as [h|]; try discriminate.
    intros [[Hc%negb_true_iff Hh%negb_true_iff]%andb_true_iff Hcmp]%andb_true_iff.
    by exists c, h.
  - intros (c & h & -> & -> & -> & -> & ->). reflexivity.
Qed.

Lemma pe_part_cases d :
  pe_part d = [] ∨ ∃ x, pe_part d = [x] ∧ x ∈ pe_labels.
Proof.
  unfold pe_part. destruct (d !! "trailingPE") as [pe|]; [|by left].
  destruct (negb _); [right|by left].
  exists (pe_label pe). split; [done|].
  unfold pe_labels.
  destruct (pe_label_cases pe) as [-> | [-> | ->]]; repeat constructor.
Qed.

(** The members of the list [_get_valuation_assessment] returns. *)
Lemma assessment_members self d :
  info self = Some d →
  let high := band float_ge (current_value d) (d !! "fiftyTwoWeekHigh") 0.95 in
  let low := band PrimFloat.leb (current_value d) (d !! "fiftyTwoWeekLow") 1.05 in
  ∃ l, _get_valuation_assessment self = Py.Ok l
    ∧ ∀ x, x ∈ l ↔
        x ∈ pe_part d
        ∨ (x = "Near 52-week High" ∧ high = true)
        ∨ (x = "Near 52-week Low" ∧ low = true)
        ∨ (x = "No significant alerts"
           ∧ pe_part d = [] ∧ high = false ∧ low = false).
Proof.
  intros Hd high low.
  destruct (valuation_assessment_run self d Hd) as (rules & Hr & ->).
  rewrite (rule_labels_run self d Hd) in Hr. injection Hr as <-.
  fold high low. eexists. split; [reflexivity|]. intros x.
  destruct (pe_part_cases d) as [-> | (y & -> & _)]; destruct high, low; cbn;
    rewrite ?elem_of_cons, ?elem_of_nil; naive_solver.
Qed.

(** ** C4 and C5: the 52-week band *)

(** C4, as stated, fails: the derived price (0.0, the previous close) and
    [fiftyTwoWeekHigh] (0.0) are both present and 0.0 >= 0.0 * 0.95, and
    the label is not in the assessment. *)
Lemma zero_price_is_not_near_high :
  _get_current_price (loaded quote_zero_high []) = Py.Ok (Py.Float 0)
  ∧ quote_zero_high !! "fiftyTwoWeekHigh" = Some 0%float
  ∧ float_ge 0 (PrimFloat.mul 0 0.95) = true
  ∧ _get_valuation_assessment (loaded quote_zero_high [])
    = Py.Ok ["No significant alerts"]
  ∧ "Near 52-week High" ∉ ["No significant alerts"].
Proof. repeat split. intros H. not_listed H. Qed.

(** C4 (amended): the assessment includes "Near 52-week High" exactly when
    the derived current price is present and not zero, [fiftyTwoWeekHigh]
    is present and not zero, and current >= fiftyTwoWeekHigh * 0.95. *)
Theorem near_high_label self d :
  info self = Some d →
  ∃ current l,
    _get_current_price self = Py.Ok current
    ∧ _get_valuation_assessment self = Py.Ok l
    ∧ ("Near 52-week High" ∈ l ↔
       ∃ c h, current = Py.Float c ∧ d !! "fiftyTwoWeekHigh" = Some h
              ∧ PrimFloat.eqb c 0 = false ∧ PrimFloat.eqb h 0 = false
              ∧ float_ge c (PrimFloat.mul h 0.95) = true).
Proof.
  intros Hd. destruct (assessment_members self d Hd) as (l & Hl & Hmem).
  exists (current_value d), l. split; [by apply current_price_run|]. split; [done|].
  rewrite <- band_true, Hmem. split; [|by auto].
  intros [Hpe | [[_ ?] | [[? _] | [? _]]]]; try done.
  destruct (pe_part_cases d) as [E | (y & E & Hy)]; rewrite E in Hpe.
  - by apply elem_of_nil in Hpe.
  - apply list_elem_of_singleton in Hpe as <-. unfold pe_labels in Hy. not_listed Hy.
Qed.

Lemma near_high_label_witness :
  ∃ current l,
    _get_current_price (loaded quote_near_high []) = Py.Ok current
    ∧ _get_valuation_assessment (loaded quote_near_high []) = Py.Ok l
    ∧ ("Near 52-week High" ∈ l ↔
       ∃ c h, current = Py.Float c ∧ quote_near_high !! "fiftyTwoWeekHigh" = Some h
              ∧ PrimFloat.eqb c 0 = false ∧ PrimFloat.eqb h 0 = false
              ∧ float_ge c (PrimFloat.mul h 0.95) = true).
Proof. exact (near_high_label (loaded quote_near_high []) _ eq_refl). Defined.

(** C5, as stated, fails: the derived price (0.0, the previous close) and
    [fiftyTwoWeekLow] (0.0) are both present and 0.0 <= 0.0 * 1.05, and
    the label is not in the assessment. *)
Lemma zero_price_is_not_near_low :
  _get_current_price (loaded quote_zero_low []) = Py.Ok (Py.Float 0)
  ∧ quote_zero_low !! "fiftyTwoWeekLow" = Some 0%float
  ∧ PrimFloat.leb 0 (PrimFloat.mul 0 1.05) = true
  ∧ _get_valuation_assessment (loaded quote_zero_low [])
    = Py.Ok ["No significant alerts"]
  ∧ "Near 52-week Low" ∉ ["No significant alerts"].
Proof. repeat split. intros H. not_listed H. Qed.

(** C5 (amended): the assessment includes "Near 52-week Low" exactly when
    the derived current price is present and not zero, [fiftyTwoWeekLow]
    is present and not zero, and current <= fiftyTwoWeekLow * 1.05. *)
Theorem near_low_label self d :
  info self = Some d →
  ∃ current l,
    _get_current_price self = Py.Ok current
    ∧ _get_valuation_assessment self = Py.Ok l
    ∧ ("Near 52-week Low" ∈ l ↔
       ∃ c h, current = Py.Float c ∧ d !! "fiftyTwoWeekLow" = Some h
              ∧ PrimFloat.eqb c 0 = false ∧ PrimFloat.eqb h 0 = false
              ∧ PrimFloat.leb c (PrimFloat.mul h 1.05) = true).
Proof.
  intros Hd. destruct (assessment_members self d Hd) as (l & Hl & Hmem).
  exists (current_value d), l. split; [by apply current_price_run|]. split; [done|].
  rewrite <- band_true, Hmem. split; [|by auto].
  intros [Hpe | [[? _] | [[_ ?] | [? _]]]]; try done.
  destruct (pe_part_cases d) as [E | (y & E & Hy)]; rewrite E in Hpe.
  - by apply elem_of_nil in Hpe.
  - apply list_elem_of_singleton in Hpe as <-. unfold pe_labels in Hy. not_listed Hy.
Qed.

Lemma near_low_label_witness :
  ∃ current l,
    _get_current_price (loaded quote_near_low []) = Py.Ok current
    ∧ _get_valuation_assessment (loaded quote_near_low []) = Py.Ok l
    ∧ ("Near 52-week Low" ∈ l ↔
       ∃ c h, current = Py.Float c ∧ quote_near_low !! "fiftyTwoWeekLow" = Some h
              ∧ PrimFloat.eqb c 0 = false ∧ PrimFloat.eqb h 0 = false
              ∧ PrimFloat.leb c (PrimFloat.mul h 1.05) = true).
Proof. exact (near_low_label (loaded quote_near_low []) _ eq_refl). Defined.

(** ** C10: both band labels at once *)

(** C10: for some quote the derived current price, [fiftyTwoWeekHigh] and
    [fiftyTwoWeekLow] are all present with high * 0.95 <= current <=
    low * 1.05, and the assessment holds "Near 52-week High" and then
    "Near 52-week Low": the two band rules do not exclude each other. *)
Theorem band_labels_together :
  ∃ (d : quote) (c h w : float),
    _get_current_price (loaded d []) = Py.Ok (Py.Float c)
    ∧ d !! "fiftyTwoWeekHigh" = Some h
    ∧ d !! "fiftyTwoWeekLow" = Some w
    ∧ PrimFloat.leb (PrimFloat.mul h 0.95) c = true
    ∧ PrimFloat.leb c (PrimFloat.mul w 1.05) = true
    ∧ _get_valuation_assessment (loaded d [])
      = Py.Ok ["Near 52-week High"; "Near 52-week Low"].
Proof. exists quote_narrow_band, 100%float, 104%float, 96%float. repeat split. Qed.

(** ** C6: the weekly volume *)

Lemma int64_small z :
  (-9223372036854775808 ≤ z < 9223372036854775808)%Z → int64 z = z.
Proof. intros Hz. unfold int64. rewrite Z.mod_small; lia. Qed.

Lemma int64_add_l a v : int64 (int64 a + v) = int64 (a + v).
Proof.
  unfold int64.
  replace ((a + 9223372036854775808) mod 18446744073709551616
           - 9223372036854775808 + v + 9223372036854775808)%Z
    with ((a + 9223372036854775808) mod 18446744073709551616 + v)%Z by lia.
  rewrite Z.add_mod_idemp_l by done. do 2 f_equal. lia.
Qed.

Lemma column_sum_from (df : DataFrame) (a : Z) :
  fold_left (λ acc v, int64 (acc + v)) (Volume <$> df) (int64 a)
  = int64 (a + total_volume df).
Proof.
  revert a. induction df as [|point rest IH]; intros a; cbn.
  - by rewrite Z.add_0_r.
  - rewrite int64_add_l, IH. f_equal. lia.
Qed.

Lemma column_sum_total (df : DataFrame) :
  column_sum (Volume <$> df) = int64 (total_volume df).
Proof. exact (column_sum_from df 0). Qed.

(** C6, as stated, fails: the two volumes of this history add up to 2^63,
    and the weekly volume returned is -2^63. *)
Lemma weekly_volume_wraps :
  total_volume history_two_large = 9223372036854775808%Z
  ∧ _calculate_weekly_volume (loaded ∅ history_two_large)
    = Some (-9223372036854775808)%Z
  ∧ Some (-9223372036854775808)%Z ≠ Some (total_volume history_two_large).
Proof. repeat split. discriminate. Qed.

(** C6 (amended): on a history with at least one point
    [_calculate_weekly_volume] returns the sum of the points' volumes as a
    64-bit signed integer, which is the sum itself whenever the sum lies
    between -2^63 and 2^63 - 1; on an empty history, and when no history is
    stored, it returns [None], which is not the volume 0. *)
Theorem weekly_volume_is_int64_sum self :
  _calculate_weekly_volume self =
    match historical_data self with
    | Some (point :: rest) => Some (int64 (total_volume (point :: rest)))
    | Some [] => None
    | None => None
    end
  ∧ (∀ h, historical_data self = Some h → h ≠ [] →
          (-9223372036854775808 ≤ total_volume h < 9223372036854775808)%Z →
          _calculate_weekly_volume self = Some (total_volume h))
  ∧ (None : option Z) ≠ Some 0%Z.
Proof.
  assert (Hrun : _calculate_weekly_volume self =
            match historical_data self with
            | Some (point :: rest) => Some (int64 (total_volume (point :: rest)))
            | Some [] => None
            | None => None
            end).
  { unfold _calculate_weekly_volume.
    destruct (historical_data self) as [[|point rest]|]; cbn [empty negb]; try done.
    by rewrite column_sum_total. }
  split; [exact Hrun|]. split; [|done].
  intros h Hh Hne Hsum. rewrite Hrun, Hh.
  destruct h as [|point rest]; [done|]. by rewrite int64_small.
Qed.

(** A week of ordinary volumes. *)
Example weekly_volume_of_three :
  _calculate_weekly_volume
    (loaded ∅ [Bar 1 1 1 1 1200000; Bar 1 1 1 1 0; Bar 1 1 1 1 34567])
  = Some 1234567%Z.
Proof. reflexivity. Qed.

(** ** C7: the fallback label *)

Lemma rule_labels_named self d rules :
  info self = Some d → rule_labels self = Py.Ok rules →
  ∀ x, x ∈ rules → x ∈ rule_label_names.
Proof.
  intros Hd Hr x. rewrite (rule_labels_run self d Hd) in Hr. injection Hr as <-.
  rewrite !elem_of_app. unfold rule_label_names, flag.
  intros [Hpe | [Hh | Hl]].
  - destruct (pe_part_cases d) as [E | (y & E & Hy)]; rewrite E in Hpe.
    + by apply elem_of_nil in Hpe.
    + apply list_elem_of_singleton in Hpe as ->. apply elem_of_app. by left.
  - destruct (band _ _ _ _); [|by apply elem_of_nil in Hh].
    apply list_elem_of_singleton in Hh as ->. unfold pe_labels. cbn. repeat constructor.
  - destruct (band _ _ _ _); [|by apply elem_of_nil in Hl].
    apply list_elem_of_singleton in Hl as ->. unfold pe_labels. cbn. repeat constructor.
Qed.

(** C7: when rules 1 to 3 append no label, the assessment is exactly
    ["No significant alerts"], in particular when [trailingPE], the current
    price, [fiftyTwoWeekHigh] and [fiftyTwoWeekLow] are all absent; when a
    rule appends a label, the assessment is the rules' labels and the
    fallback label is not among them. *)
Theorem fallback_label self d :
  info self = Some d →
  ∃ rules l,
    rule_labels self = Py.Ok rules
    ∧ _get_valuation_assessment self = Py.Ok l
    ∧ (rules = [] → l = ["No significant alerts"])
    ∧ (rules ≠ [] →
       l = rules ∧ (∀ x, x ∈ l → x ∈ rule_label_names)
       ∧ "No significant alerts" ∉ l)
    ∧ (d !! "trailingPE" = None →
       _get_current_price self = Py.Ok Py.None →
       d !! "fiftyTwoWeekHigh" = None →
       d !! "fiftyTwoWeekLow" = None →
       rules = [] ∧ l = ["No significant alerts"]).
Proof.
  intros Hd. destruct (valuation_assessment_run self d Hd) as (rules & Hr & Hl).
  exists rules, (match rules with _ :: _ => rules | [] => ["No significant alerts"] end).
  split; [done|]. split; [done|]. split; [by intros ->|]. split.
  - intros Hne. destruct rules as [|r rules]; [done|].
    split; [done|]. split; [by eapply rule_labels_named|].
    intros Hin. eapply rule_labels_named in Hin; [|done..].
    unfold rule_label_names, pe_labels in Hin. cbn in Hin. not_listed Hin.
  - intros Hpe Hcur Hhigh Hlow.
    rewrite (current_price_run self d Hd) in Hcur. injection Hcur as Hcur.
    rewrite (rule_labels_run self d Hd) in Hr. injection Hr as <-.
    unfold pe_part. rewrite Hpe, Hcur, Hhigh, Hlow. by cbn.
Qed.

Lemma fallback_label_witness :
  ∃ rules l,
    rule_labels (loaded ∅ []) = Py.Ok rules
    ∧ _get_valuation_assessment (loaded ∅ []) = Py.Ok l
    ∧ (rules = [] → l = ["No significant alerts"])
    ∧ (rules ≠ [] →
       l = rules ∧ (∀ x, x ∈ l → x ∈ rule_label_names)
       ∧ "No significant alerts" ∉ l)
    ∧ ((∅ : quote) !! "trailingPE" = None →
       _get_current_price (loaded ∅ []) = Py.Ok Py.None →
       (∅ : quote) !! "fiftyTwoWeekHigh" = None →
       (∅ : quote) !! "fiftyTwoWeekLow" = None →
       rules = [] ∧ l = ["No significant alerts"]).
Proof. exact (fallback_label (loaded ∅ []) ∅ eq_refl). Defined.

(** ** C8: the whole record *)

(** C8: [get_all_metrics] returns [None] when the provider raises, for the
    quote or for the history, and in no other case: when both calls answer
    it returns the record whose entries are the ticker, the stored fields
    and the results of the three derivations, whichever fields the quote
    lacks. *)
Theorem get_all_metrics_outcome self st :
  match quote_info (stock self), history (stock self) "1wk" with
  | Failed e, _ =>
      get_all_metrics self st
      = (Py.Ok None, self, st ++ ["Data fetch failed: " +:+ e])
  | Provided d, Failed e =>
      get_all_metrics self st
      = (Py.Ok None,
         {| ticker := ticker self; stock := stock self;
            info := Some d; historical_data := historical_data self |},
         st ++ ["Data fetch failed: " +:+ e])
  | Provided d, Provided h =>
      let fetched :=
        {| ticker := ticker self; stock := stock self;
           info := Some d; historical_data := Some h |} in
      ∃ price labels,
        _get_current_price fetched = Py.Ok price
        ∧ _get_valuation_assessment fetched = Py.Ok labels
        ∧ get_all_metrics self st
          = (Py.Ok (Some {| m_ticker := ticker self;
                            current_price := price;
                            week52_high := Py.get d "fiftyTwoWeekHigh";
                            week52_low := Py.get d "fiftyTwoWeekLow";
                            avg_daily_volume := Py.get d "averageVolume";
                            weekly_volume := _calculate_weekly_volume fetched;
                            pe_ratio := Py.get d "trailingPE";
                            valuation_assessment := labels |}),
             fetched, st)
  end.
Proof.
  unfold get_all_metrics, fetch_data.
  destruct (quote_info (stock self)) as [d|e]; [|reflexivity].
  cbn [stock].
  destruct (history (stock self) "1wk") as [h|e]; [|reflexivity].
  cbn -[_get_current_price info_get _get_valuation_assessment _calculate_weekly_volume].
  set (fetched := {| ticker := ticker self; stock := stock self;
                     info := Some d; historical_data := Some h |}).
  assert (Hd : info fetched = Some d) by done.
  destruct (valuation_assessment_run fetched d Hd) as (rules & _ & Hl).
  eexists _, _. split; [by apply current_price_run|]. split; [exact Hl|].
  rewrite (current_price_run fetched d Hd), !(info_get_run fetched d Hd), Hl.
  reflexivity.
Qed.

(** A quote with no field at all still yields a record. *)
Example empty_quote_record :
  (get_all_metrics (__init__ (λ _, feed ∅ []) "welcorp") []).1.1
  = Py.Ok (Some {| m_ticker := "WELCORP.NS"; current_price := Py.None;
                   week52_high := Py.None; week52_low := Py.None;
                   avg_daily_volume := Py.None; weekly_volume := None;
                   pe_ratio := Py.None;
                   valuation_assessment := ["No significant alerts"] |}).
Proof. reflexivity. Qed.

(** ** C9: the joined ticker *)

(** C9: the list holds the single entry "FEDERALBNKAAVAS", the join of
    "FEDERALBNK" and "AAVAS", and holds neither of the two on its own. *)
Theorem tickers_joined_entry :
  fetch_all_nse_tickers !! 11%nat = Some ("FEDERALBNK" +:+ "AAVAS")
  ∧ "FEDERALBNK" +:+ "AAVAS" = "FEDERALBNKAAVAS"
  ∧ length (filter (.= "FEDERALBNKAAVAS") fetch_all_nse_tickers) = 1%nat
  ∧ ("FEDERALBNK" ∉ fetch_all_nse_tickers)
  ∧ ("AAVAS" ∉ fetch_all_nse_tickers)
  ∧ length fetch_all_nse_tickers = 36%nat.
Proof.
  repeat split.
  - intros H. unfold fetch_all_nse_tickers in H. cbn in H. not_listed H.
  - intros H. unfold fetch_all_nse_tickers in H. cbn in H. not_listed H.
Qed.

(** * Further properties of the class *)

(** ** [__init__] *)

Lemma upper_ascii_idem c : Py.upper_ascii (Py.upper_ascii c) = Py.upper_ascii c.
Proof. by destruct c as [[] [] [] [] [] [] [] []]. Qed.

Lemma upper_idem s : Py.upper (Py.upper s) = Py.upper s.
Proof. induction s as [|c s IH]; cbn; [done|]. by rewrite upper_ascii_idem, IH. Qed.

Lemma upper_length s : String.length (Py.upper s) = String.length s.
Proof. induction s as [|c s IH]; cbn; [done|]. by rewrite IH. Qed.

Lemma append_length (s1 s2 : string) :
  String.length (s1 +:+ s2) = (String.length s1 + String.length s2)%nat.
Proof. induction s1 as [|c s1 IH]; simpl; [done|]. by rewrite IH. Qed.

(** X1: for an ASCII symbol the operator does not depend on the case of
    the symbol it is built from: the symbol and its upper-case form give
    the same ticker and the same provider handle; the ticker is three
    characters longer than the symbol. *)
Theorem init_ignores_case yf s :
  Py.isascii s = true →
  __init__ yf (Py.upper s) = __init__ yf s
  ∧ String.length (ticker (__init__ yf s)) = (String.length s + 3)%nat.
Proof.
  intros _. unfold __init__. rewrite upper_idem. split; [done|]. cbn [ticker].
  by rewrite append_length, upper_length.
Qed.

Lemma init_ignores_case_witness :
  __init__ (λ _, feed ∅ []) (Py.upper "welcorp") = __init__ (λ _, feed ∅ []) "welcorp"
  ∧ String.length (ticker (__init__ (λ _, feed ∅ []) "welcorp"))
    = (String.length "welcorp" + 3)%nat.
Proof. exact (init_ignores_case (λ _, feed ∅ []) "welcorp" eq_refl). Defined.

(** X2: while [info] is [None], as [__init__] leaves it, every method that
    reads the quote raises [AttributeError]; [_calculate_weekly_volume],
    which tests [historical_data] for [None] first, returns [None]. *)
Theorem methods_before_fetch self thr :
  info self = None →
  historical_data self = None →
  _get_current_price self = Py.Raise Py.AttributeError
  ∧ _near_52_week_high self thr = Py.Raise Py.AttributeError
  ∧ _near_52_week_low self thr = Py.Raise Py.AttributeError
  ∧ _get_valuation_assessment self = Py.Raise Py.AttributeError
  ∧ _calculate_weekly_volume self = None.
Proof.
  intros Hi Hh.
  unfold _get_valuation_assessment, rule_labels, _near_52_week_high,
    _near_52_week_low, _get_current_price, _calculate_weekly_volume, info_get.
  by rewrite Hi, Hh.
Qed.

Lemma methods_before_fetch_witness :
  let self := __init__ (λ _, feed ∅ []) "welcorp" in
  _get_current_price self = Py.Raise Py.AttributeError
  ∧ _near_52_week_high self 0.95 = Py.Raise Py.AttributeError
  ∧ _near_52_week_low self 1.05 = Py.Raise Py.AttributeError
  ∧ _get_valuation_assessment self = Py.Raise Py.AttributeError
  ∧ _calculate_weekly_volume self = None.
Proof.
  exact (methods_before_fetch (__init__ (λ _, feed ∅ []) "welcorp") 0.95 eq_refl eq_refl).
Defined.

(** ** [fetch_data] *)

(** X3: [fetch_data] never changes the ticker or the provider handle.  It
    returns [True] exactly when it shows nothing, and then both [info] and
    [historical_data] are stored; it returns [False] exactly when it shows
    one more "Data fetch failed" message. *)
Theorem fetch_data_outcome self st :
  ∃ ok self' st',
    fetch_data self st = (ok, self', st')
    ∧ ticker self' = ticker self
    ∧ stock self' = stock self
    ∧ (ok = true →
       st' = st ∧ is_Some (info self') ∧ is_Some (historical_data self'))
    ∧ (ok = false → ∃ e, st' = st ++ ["Data fetch failed: " +:+ e]).
Proof.
  unfold fetch_data.
  destruct (quote_info (stock self)) as [d|e]; cbn.
  - destruct (history (stock self) "1wk") as [h|e]; cbn;
      eexists _, _, _; (split; [reflexivity|]); cbn; repeat split; eauto; done.
  - eexists _, _, _. split; [reflexivity|]. repeat split; eauto; done.
Qed.

(** X4: when the quote arrives and [history] raises, [fetch_data] has
    already replaced [info] and leaves [historical_data] as it was: the
    price is then read from the new quote and the weekly volume from the
    history of an earlier fetch. *)
Theorem fetch_data_half_done self st d e :
  quote_info (stock self) = Provided d →
  history (stock self) "1wk" = Failed e →
  ∃ self', fetch_data self st = (false, self', st ++ ["Data fetch failed: " +:+ e])
    ∧ _get_current_price self' = Py.Ok (current_value d)
    ∧ _calculate_weekly_volume self' = _calculate_weekly_volume self.
Proof.
  intros Hq Hh. unfold fetch_data. rewrite Hq. cbn. rewrite Hh.
  eexists. split; [reflexivity|]. split; [by apply current_price_run|done].
Qed.

Lemma fetch_data_half_done_witness :
  let self :=
    {| ticker := "WELCORP.NS";
       stock := {| quote_info := Provided quote_near_high;
                   history := λ _, Failed "timeout" |};
       info := Some quote_near_low;
       historical_data := Some [Bar 1 2 3 4 700] |} in
  ∃ self', fetch_data self [] = (false, self', [] ++ ["Data fetch failed: " +:+ "timeout"])
    ∧ _get_current_price self' = Py.Ok (current_value quote_near_high)
    ∧ _calculate_weekly_volume self' = _calculate_weekly_volume self.
Proof.
  exact (fetch_data_half_done
           {| ticker := "WELCORP.NS";
              stock := {| quote_info := Provided quote_near_high;
                          history := λ _, Failed "timeout" |};
              info := Some quote_near_low;
              historical_data := Some [Bar 1 2 3 4 700] |}
           [] quote_near_high "timeout" eq_refl eq_refl).
Defined.

(** ** [get_all_metrics] *)

Lemma metrics_from_provider self1 self2 st1 st2 :
  ticker self1 = ticker self2 → stock self1 = stock self2 →
  (get_all_metrics self1 st1).1.1 = (get_all_metrics self2 st2).1.1.
Proof.
  intros Ht Hs. unfold get_all_metrics, fetch_data. rewrite Ht, Hs.
  destruct (quote_info (stock self2)) as [d|e]; cbn; [|done].
  by destruct (history (stock self2) "1wk") as [h|e].
Qed.

(** X5: the value [get_all_metrics] returns is decided by the ticker and
    the provider alone: the [info] and [historical_data] left by an
    earlier fetch, and what was shown before, have no part in it. *)
Theorem metrics_ignore_stored_data self st i h st' :
  (get_all_metrics
     {| ticker := ticker self; stock := stock self;
        info := i; historical_data := h |} st').1.1
  = (get_all_metrics self st).1.1.
Proof. by apply metrics_from_provider. Qed.

(** ** The derivations *)

(** X7: on a stored quote the derived price is true under Python's truth
    test exactly when [currentPrice] or [regularMarketPreviousClose] is:
    a price of zero is passed over for the previous close, and is only
    returned when the previous close is zero as well.  It is [None] or a
    float, never the result of a comparison. *)
Theorem current_price_truth self d :
  info self = Some d →
  ∃ v, _get_current_price self = Py.Ok v
    ∧ Py.truthy v
      = Py.truthy (Py.get d "currentPrice")
        || Py.truthy (Py.get d "regularMarketPreviousClose")
    ∧ ∀ b, v ≠ Py.Bool b.
Proof.
  intros Hd. exists (current_value d). split; [by apply current_price_run|].
  unfold current_value, Py.get.
  destruct (d !! "currentPrice") as [c|], (d !! "regularMarketPreviousClose") as [p|];
    cbn; try destruct (PrimFloat.eqb c 0) eqn:Ec; cbn; split; try done;
    by rewrite ?Ec, ?orb_false_r.
Qed.

Lemma current_price_truth_witness :
  ∃ v, _get_current_price (loaded quote_price_zero []) = Py.Ok v
    ∧ Py.truthy v
      = Py.truthy (Py.get quote_price_zero "currentPrice")
        || Py.truthy (Py.get quote_price_zero "regularMarketPreviousClose")
    ∧ ∀ b, v ≠ Py.Bool b.
Proof. exact (current_price_truth (loaded quote_price_zero []) _ eq_refl). Defined.

(** X8: on a stored quote the two band tests return for every threshold,
    whichever fields are missing: the comparison and the product are only
    reached with two numbers, so no [TypeError] is raised.  The value
    returned is true only when the price and the limit are both present
    and the comparison holds. *)
Theorem band_tests_return self d thr :
  info self = Some d →
  ∃ vh vl,
    _near_52_week_high self thr = Py.Ok vh
    ∧ _near_52_week_low self thr = Py.Ok vl
    ∧ (Py.truthy vh = true →
       ∃ c h, current_value d = Py.Float c ∧ d !! "fiftyTwoWeekHigh" = Some h
              ∧ PrimFloat.leb (PrimFloat.mul h thr) c = true)
    ∧ (Py.truthy vl = true →
       ∃ c w, current_value d = Py.Float c ∧ d !! "fiftyTwoWeekLow" = Some w
              ∧ PrimFloat.leb c (PrimFloat.mul w thr) = true).
Proof.
  intros Hd.
  destruct (near_high_run self d Hd thr) as (vh & Hh & Th).
  destruct (near_low_run self d Hd thr) as (vl & Hl & Tl).
  exists vh, vl. split; [done|]. split; [done|].
  rewrite Th, Tl, !band_true. split; intros (c & h & ? & ? & _ & _ & ?); eauto.
Qed.

Lemma band_tests_return_witness :
  ∃ vh vl,
    _near_52_week_high (loaded quote_closed_only []) 0.95 = Py.Ok vh
    ∧ _near_52_week_low (loaded quote_closed_only []) 0.95 = Py.Ok vl
    ∧ (Py.truthy vh = true →
       ∃ c h, current_value quote_closed_only = Py.Float c
              ∧ quote_closed_only !! "fiftyTwoWeekHigh" = Some h
              ∧ PrimFloat.leb (PrimFloat.mul h 0.95) c = true)
    ∧ (Py.truthy vl = true →
       ∃ c w, current_value quote_closed_only = Py.Float c
              ∧ quote_closed_only !! "fiftyTwoWeekLow" = Some w
              ∧ PrimFloat.leb c (PrimFloat.mul w 0.95) = true).
Proof. exact (band_tests_return (loaded quote_closed_only []) _ 0.95 eq_refl). Defined.

Lemma pe_labels_not_band x :
  x ∈ pe_labels → x ≠ "Near 52-week High" ∧ x ≠ "Near 52-week Low".
Proof. unfold pe_labels. intros H. split; intros ->; not_listed H. Qed.

(** X9: an assessment is never empty and never longer than three labels;
    no label occurs twice; and the labels stand in the order of the
    rules: it is either the fallback alone or taken, in order, from one
    P/E label, "Near 52-week High", "Near 52-week Low". *)
Theorem assessment_shape self d :
  info self = Some d →
  ∃ l, _get_valuation_assessment self = Py.Ok l
    ∧ (1 ≤ length l ≤ 3)%nat
    ∧ NoDup l
    ∧ (l = ["No significant alerts"]
       ∨ ∃ x, x ∈ pe_labels
              ∧ sublist l [x; "Near 52-week High"; "Near 52-week Low"]).
Proof.
  intros Hd. destruct (valuation_assessment_run self d Hd) as (rules & Hr & ->).
  rewrite (rule_labels_run self d Hd) in Hr. injection Hr as <-.
  eexists. split; [reflexivity|]. unfold flag.
  destruct (pe_part_cases d) as [-> | (y & -> & Hy)].
  - do 2 destruct (band _ _ _ _); cbn;
      (split; [lia|]); (split; [distinct_labels|]);
      first [ by left
            | right; exists "Fair Valuation";
              split; [unfold pe_labels; by repeat constructor|]; in_order ].
  - destruct (pe_labels_not_band y Hy) as [Hh Hl].
    do 2 destruct (band _ _ _ _); cbn;
      (split; [lia|]); (split; [distinct_labels|]);
      right; exists y; (split; [done|]); in_order.
Qed.

Lemma assessment_shape_witness :
  ∃ l, _get_valuation_assessment (loaded quote_narrow_band []) = Py.Ok l
    ∧ (1 ≤ length l ≤ 3)%nat
    ∧ NoDup l
    ∧ (l = ["No significant alerts"]
       ∨ ∃ x, x ∈ pe_labels
              ∧ sublist l [x; "Near 52-week High"; "Near 52-week Low"]).
Proof. exact (assessment_shape (loaded quote_narrow_band []) _ eq_refl). Defined.

(** ** The weekly volume *)

Lemma total_volume_perm h1 h2 : h1 ≡ₚ h2 → total_volume h1 = total_volume h2.
Proof. induction 1; cbn; lia. Qed.

Lemma weekly_volume_run self h :
  historical_data self = Some h →
  _calculate_weekly_volume self
  = match h with [] => None | _ :: _ => Some (int64 (total_volume h)) end.
Proof.
  intros Hh. unfold _calculate_weekly_volume. rewrite Hh.
  destruct h as [|point rest]; [done|]. cbn [empty negb]. by rewrite column_sum_total.
Qed.

(** X10: the weekly volume does not depend on the order of the points of
    the history. *)
Theorem weekly_volume_any_order self1 self2 h1 h2 :
  historical_data self1 = Some h1 →
  historical_data self2 = Some h2 →
  h1 ≡ₚ h2 →
  _calculate_weekly_volume self1 = _calculate_weekly_volume self2.
Proof.
  intros H1 H2 Hp. rewrite (weekly_volume_run _ _ H1), (weekly_volume_run _ _ H2).
  destruct h1 as [|p1 r1], h2 as [|p2 r2]; try done.
  - by apply Permutation_nil_cons in Hp.
  - symmetry in Hp. by apply Permutation_nil_cons in Hp.
  - by rewrite (total_volume_perm _ _ Hp).
Qed.

Lemma weekly_volume_any_order_witness :
  _calculate_weekly_volume (loaded ∅ [Bar 1 2 3 4 10; Bar 1 2 3 4 32])
  = _calculate_weekly_volume (loaded ∅ [Bar 1 2 3 4 32; Bar 1 2 3 4 10]).
Proof.
  apply (weekly_volume_any_order _ _ [Bar 1 2 3 4 10; Bar 1 2 3 4 32]
           [Bar 1 2 3 4 32; Bar 1 2 3 4 10]); [reflexivity..|].
  apply perm_swap.
Defined.

Lemma total_volume_nonneg h :
  Forall (λ point, (0 ≤ Volume point)%Z) h → (0 ≤ total_volume h)%Z.
Proof. induction 1; cbn; lia. Qed.

Lemma total_volume_zero h :
  Forall (λ point, (0 ≤ Volume point)%Z) h →
  total_volume h = 0%Z ↔ Forall (λ point, Volume point = 0%Z) h.
Proof.
  induction 1 as [|point rest Hp Hrest IH]; cbn; [by split|].
  pose proof (total_volume_nonneg rest Hrest). split.
  - intros Hsum. constructor; [lia|]. apply IH. lia.
  - intros Hall. apply Forall_cons in Hall as [Hz Hall]. apply IH in Hall. lia.
Qed.

(** X11: when no point of the history has a negative volume and the
    volumes add up to less than 2^63, the weekly volume is not negative,
    and it is 0 exactly when the history has at least one point and every
    point has volume 0. *)
Theorem weekly_volume_sign self h :
  historical_data self = Some h →
  Forall (λ point, (0 ≤ Volume point)%Z) h →
  (total_volume h < 9223372036854775808)%Z →
  (∀ v, _calculate_weekly_volume self = Some v → (0 ≤ v)%Z)
  ∧ (_calculate_weekly_volume self = Some 0%Z
     ↔ h ≠ [] ∧ Forall (λ point, Volume point = 0%Z) h).
Proof.
  intros Hh Hpos Hfit. rewrite (weekly_volume_run self h Hh).
  destruct h as [|point rest]; [split; [done|]; split; [done|by intros [? _]]|].
  pose proof (total_volume_nonneg _ Hpos) as Hsum.
  pose proof (total_volume_zero _ Hpos) as Hzero.
  set (h := point :: rest) in *. rewrite int64_small by lia. split.
  - intros v [= E]. by rewrite <- E.
  - rewrite <- Hzero. split.
    + intros [= E]. split; [done|exact E].
    + intros [_ E]. f_equal. exact E.
Qed.

Lemma weekly_volume_sign_witness :
  (∀ v, _calculate_weekly_volume (loaded ∅ [Bar 1 2 3 4 0; Bar 1 2 3 4 0]) = Some v
        → (0 ≤ v)%Z)
  ∧ (_calculate_weekly_volume (loaded ∅ [Bar 1 2 3 4 0; Bar 1 2 3 4 0]) = Some 0%Z
     ↔ [Bar 1 2 3 4 0; Bar 1 2 3 4 0] ≠ []
       ∧ Forall (λ point, Volume point = 0%Z) [Bar 1 2 3 4 0; Bar 1 2 3 4 0]).
Proof.
  apply (weekly_volume_sign (loaded ∅ [Bar 1 2 3 4 0; Bar 1 2 3 4 0]) _ eq_refl).
  - repeat constructor; cbn; lia.
  - cbn. lia.
Defined.

(** * The page *)

Lemma show_alerts_run alerts shown :
  show_alerts alerts shown = (Py.Ok tt, shown ++ (show_alert <$> alerts)).
Proof.
  revert shown. induction alerts as [|alert rest IH]; intros shown; cbn.
  - by rewrite app_nil_r.
  - unfold mbind, ui_bind, show. rewrite IH. by rewrite <- app_assoc.
Qed.




(** ** [display_results] *)

(** The three prices are formatted first, and nothing after them raises. *)
Lemma display_results_result F data shown :
  (display_results F data shown).1
  = (_ ← format_fixed2 F (current_price data);
     _ ← format_fixed2 F (week52_high data);
     _ ← format_fixed2 F (week52_low data);
     Py.Ok tt).
Proof.
  destruct data as [tk cp hi lo av wv pe va].
  unfold display_results, mbind, ui_bind, show, eval, mret, ui_ret. cbn.
  destruct cp as [|cp|[]], hi as [|hi|[]], lo as [|lo|[]]; cbn; try done.
  all: destruct av as [|av|[]]; cbn; try destruct (PrimFloat.eqb av 0); cbn;
    by rewrite show_alerts_run.
Qed.

(** X13: [display_results] completes exactly when the current price, the
    52-week high and the 52-week low of the record are not [None]; when
    one of them is [None], formatting it with [.2f] raises [TypeError].
    Either way what the page showed before is still there, in front of
    what the call added. *)
Theorem display_results_needs_prices F data shown :
  (∃ more, (display_results F data shown).2 = shown ++ more)
  ∧ (current_price data ≠ Py.None ∧ week52_high data ≠ Py.None
     ∧ week52_low data ≠ Py.None →
     (display_results F data shown).1 = Py.Ok tt)
  ∧ (current_price data = Py.None ∨ week52_high data = Py.None
     ∨ week52_low data = Py.None →
     (display_results F data shown).1 = Py.Raise Py.TypeError).
Proof.
  split.
  - destruct data as [tk cp hi lo av wv pe va].
    unfold display_results, mbind, ui_bind, show, eval, mret, ui_ret. cbn.
    destruct cp as [|cp|[]], hi as [|hi|[]], lo as [|lo|[]]; cbn;
      try (rewrite <- ?app_assoc; by eexists).
    all: destruct av as [|av|[]]; cbn; try destruct (PrimFloat.eqb av 0); cbn;
      rewrite show_alerts_run; cbn; rewrite <- ?app_assoc; by eexists.
  - rewrite display_results_result.
    destruct (current_price data) as [|cp|[]], (week52_high data) as [|hi|[]],
      (week52_low data) as [|lo|[]]; cbn; naive_solver.
Qed.


(** ** [main] *)

Lemma get_all_metrics_failed self st e :
  quote_info (stock self) = Failed e
  ∨ (∃ d, quote_info (stock self) = Provided d
          ∧ history (stock self) "1wk" = Failed e) →
  ∃ self', get_all_metrics self st
           = (Py.Ok None, self', st ++ ["Data fetch failed: " +:+ e]).
Proof.
  unfold get_all_metrics, fetch_data.
  intros [-> | (d & -> & Hh)]; [by eexists|]. cbn [stock]. rewrite Hh. by eexists.
Qed.

Lemma get_all_metrics_fetched self st d h :
  quote_info (stock self) = Provided d →
  history (stock self) "1wk" = Provided h →
  ∃ data self',
    get_all_metrics self st = (Py.Ok (Some data), self', st)
    ∧ current_price data = current_value d
    ∧ week52_high data = Py.get d "fiftyTwoWeekHigh"
    ∧ week52_low data = Py.get d "fiftyTwoWeekLow".
Proof.
  intros Hq Hh. unfold get_all_metrics, fetch_data. rewrite Hq. cbn [stock]. rewrite Hh.
  cbn -[_get_current_price info_get _get_valuation_assessment _calculate_weekly_volume].
  set (fetched := {| ticker := ticker self; stock := stock self;
                     info := Some d; historical_data := Some h |}).
  assert (Hd : info fetched = Some d) by done.
  destruct (valuation_assessment_run fetched d Hd) as (rules & _ & Hl).
  rewrite (current_price_run fetched d Hd), !(info_get_run fetched d Hd), Hl.
  eexists _, _. split; [reflexivity|]. done.
Qed.

(** X15: when the provider raises for the selected symbol, for the quote
    or for the history, [main] ends normally having shown the selection and
    two errors, the provider's message and then "Could not retrieve data";
    no part of a record is shown. *)
Theorem main_fetch_failed F yf s shown e :
  s ≠ "" →
  quote_info (yf (Py.upper s +:+ ".NS")) = Failed e
  ∨ (∃ d, quote_info (yf (Py.upper s +:+ ".NS")) = Provided d
          ∧ history (yf (Py.upper s +:+ ".NS")) "1wk" = Failed e) →
  main F yf (Some s) shown
  = (Py.Ok tt,
     shown ++ main_head
     ++ [ write ("### Selected Stock: " +:+ s);
          error ("Data fetch failed: " +:+ e);
          error ("Could not retrieve data for " +:+ s) ]).
Proof.
  intros Hs Hfail. destruct s as [|c s]; [done|].
  destruct (get_all_metrics_failed (__init__ yf (String c s)) [] e Hfail) as (self' & E).
  unfold main, mbind, ui_bind, show, mret, ui_ret. rewrite E. cbn.
  by rewrite <- !app_assoc.
Qed.

Lemma main_fetch_failed_witness :
  main {| fixed2 := λ _, "0.00"; str := λ _, "0.0"; grouped := λ _, "0.0" |}
    (λ _, {| quote_info := Failed "no network"; history := λ _, Provided [] |})
    (Some "welcorp") []
  = (Py.Ok tt,
     [] ++ main_head
     ++ [ write ("### Selected Stock: " +:+ "welcorp");
          error ("Data fetch failed: " +:+ "no network");
          error ("Could not retrieve data for " +:+ "welcorp") ]).
Proof.
  apply main_fetch_failed; [discriminate|]. left. reflexivity.
Defined.

(** X16: when the provider answers for the selected symbol, [main] ends
    normally if the quote yields a current price, a 52-week high and a
    52-week low, and raises [TypeError] out of [display_results] if one of
    the three is missing, although [get_all_metrics] returned a record. *)
Theorem main_needs_prices F yf s shown d h :
  s ≠ "" →
  quote_info (yf (Py.upper s +:+ ".NS")) = Provided d →
  history (yf (Py.upper s +:+ ".NS")) "1wk" = Provided h →
  (current_value d ≠ Py.None ∧ is_Some (d !! "fiftyTwoWeekHigh")
   ∧ is_Some (d !! "fiftyTwoWeekLow") →
   (main F yf (Some s) shown).1 = Py.Ok tt)
  ∧ (current_value d = Py.None ∨ d !! "fiftyTwoWeekHigh" = None
     ∨ d !! "fiftyTwoWeekLow" = None →
     (main F yf (Some s) shown).1 = Py.Raise Py.TypeError).
Proof.
  intros Hs Hq Hh. destruct s as [|c s]; [done|].
  destruct (get_all_metrics_fetched (__init__ yf (String c s)) [] d h Hq Hh)
    as (data & self' & E & Hcp & Hhi & Hlo).
  assert (Hmain : (main F yf (Some (String c s)) shown).1
                  = (_ ← format_fixed2 F (current_price data);
                     _ ← format_fixed2 F (week52_high data);
                     _ ← format_fixed2 F (week52_low data);
                     Py.Ok tt)).
  { unfold main, mbind at 1 2 3 4 5, ui_bind, show, mret, ui_ret. rewrite E.
    cbn [fmap list_fmap app]. apply display_results_result. }
  rewrite Hmain, Hcp, Hhi, Hlo. unfold Py.get. split.
  - intros (Hcur & [hi ->] & [lo ->]).
    destruct (current_value_cases d) as [? | [cur ->]]; done.
  - intros [-> | [-> | ->]]; [done| |];
      destruct (current_value_cases d) as [-> | [cur ->]]; try done;
      by destruct (d !! "fiftyTwoWeekHigh").
Qed.

Lemma main_needs_prices_witness :
  let F := {| fixed2 := λ _, "0.00"; str := λ _, "0.0"; grouped := λ _, "0.0" |} in
  (current_value quote_near_high ≠ Py.None
   ∧ is_Some (quote_near_high !! "fiftyTwoWeekHigh")
   ∧ is_Some (quote_near_high !! "fiftyTwoWeekLow") →
   (main F (λ _, feed quote_near_high []) (Some "welcorp") []).1 = Py.Ok tt)
  ∧ (current_value quote_near_high = Py.None
     ∨ quote_near_high !! "fiftyTwoWeekHigh" = None
     ∨ quote_near_high !! "fiftyTwoWeekLow" = None →
     (main F (λ _, feed quote_near_high []) (Some "welcorp") []).1
     = Py.Raise Py.TypeError).
Proof.
  apply (main_needs_prices _ (λ _, feed quote_near_high []) "welcorp" [] _ []);
    [discriminate|reflexivity|reflexivity].
Defined.

(** ** The symbols on offer *)

(** X17: every symbol of the list is non-empty, so [main] goes on to fetch
    it, and is upper-case already, so its operator has the ticker symbol +
    ".NS"; two positions of the list never hold the same symbol. *)
Theorem listed_symbols yf :
  (∀ s, s ∈ fetch_all_nse_tickers →
        s ≠ "" ∧ ticker (__init__ yf s) = s +:+ ".NS"
        ∧ stock (__init__ yf s) = yf (s +:+ ".NS"))
  ∧ NoDup fetch_all_nse_tickers.
Proof.
  split.
  - assert (H : Forall (λ s, s ≠ "" ∧ Py.upper s = s) fetch_all_nse_tickers)
      by (unfold fetch_all_nse_tickers; repeat constructor; done).
    intros s Hs. rewrite Forall_forall in H. destruct (H s Hs) as [Hne Hup].
    unfold __init__. cbn [ticker stock]. by rewrite Hup.
  - apply (bool_decide_unpack _). by vm_compute.
Qed.

(** ** The test [sub in alert] *)



